(** * sunpy.io.jp2: the JPEG 2000 reader and writer of sunpy

    A shallow embedding of [src/sunpy/io/jp2.py] ([read], [get_header],
    [header_to_xml], [generate_jp2_xmlbox], [get_tmp_jp2_file_name],
    [write]) together with the properties its specification states.

    What lies outside the module is kept abstract or small:
    - header text is ASCII ([string]); on such text [str.isdigit] is the
      test "non-empty and every character in 0..9";
    - Python's [float] type, [float(s)] and [str(x)] on floats are an
      interface ([PyFloat]); nothing is assumed about binary64;
    - the JPEG 2000 codec (glymur) is lossless on 8-bit samples: a container
      is its box list and the sample array it decodes to.  The box list a
      fresh encode produces is an interface ([Jp2Codec]);
    - XML documents are trees; writing a tree to a file and parsing it back
      is the identity, and tags and texts are taken to be XML-compatible;
    - [write] is the file system that a call which returns leaves behind: a
      call in which the codec or lxml raises is not modelled, and the
      theorems about [write] speak of calls that return. *)

From Stdlib Require Import ZArith Ascii.
From Stdlib Require String DecimalString DecimalPos DecimalZ.
From stdpp Require Import base option list strings gmap.

Set Warnings "-register-all".

(** ** Python values and builtins *)

Module Py.

(** Exceptions the module can run into.  [MissingMetadataError] is the
    error the specification names; no operation below raises it. *)
Inductive exn :=
| OSError              (* Jp2k(path): no container at that path (versions of
                          glymur that open lazily fail later instead) *)
| IndexError           (* l[i] out of range *)
| KeyError             (* d[k], k not a key *)
| AttributeError       (* attribute missing on the object at hand *)
| ValueError           (* float(s) on text that is no float literal *)
| SerializeError       (* ET.tostring(None): the failure inside the
                          serializer, whatever its Python class *)
| OutsideContract      (* a collaborator called outside its stated contract *)
| MissingMetadataError.

Inductive result (A : Type) :=
| OK (a : A)
| Raise (e : exn).
Arguments OK {A} a.
Arguments Raise {A} e.

#[export] Instance result_ret : MRet result := fun _ a => OK a.
#[export] Instance result_bind : MBind result := fun _ _ f m =>
  match m with
  | OK a => f a
  | Raise e => Raise e
  end.

Definition of_option {A} (e : exn) (o : option A) : result A :=
  match o with
  | Some a => OK a
  | None => Raise e
  end.

(** [c.isdigit()] for an ASCII character. *)
Definition is_digit_char (c : ascii) : bool :=
  (48 <=? nat_of_ascii c) && (nat_of_ascii c <=? 57).

Fixpoint all_digits (s : string) : bool :=
  match s with
  | EmptyString => true
  | String c s' => is_digit_char c && all_digits s'
  end.

(** [s.isdigit()]: at least one character, all of them digits.  This is
    Python's test on ASCII text; characters beyond ASCII that Python counts
    as digits are not covered. *)
Definition isdigit (s : string) : bool :=
  match s with
  | EmptyString => false
  | String _ _ => all_digits s
  end.

Definition digit_value (c : ascii) : Z := Z.of_nat (nat_of_ascii c) - 48.

Fixpoint int_from (acc : Z) (s : string) : Z :=
  match s with
  | EmptyString => acc
  | String c s' => int_from (10 * acc + digit_value c) s'
  end.

(** [int(s)] on a string of ASCII digits (the module calls it behind
    [isdigit] only); there Python's [int] does not raise. *)
Definition int (s : string) : Z := int_from 0 s.

(** [str(n)] for an integer. *)
Definition str_int (n : Z) : string :=
  DecimalString.NilZero.string_of_int (Z.to_int n).

(** [s.replace(newline, empty)]: every newline character is dropped. *)
Definition newline : ascii := ascii_of_nat 10.

Fixpoint remove_newlines (s : string) : string :=
  match s with
  | EmptyString => EmptyString
  | String c s' =>
      if Ascii.eqb c newline then remove_newlines s'
      else String c (remove_newlines s')
  end.

(** [l[i]] for a non-negative index. *)
Definition getitem {A} (l : list A) (i : nat) : result A :=
  of_option IndexError (l !! i).

(** [l.insert(i, x)]: a negative index counts from the end, and the
    position is clipped to [0 .. len(l)]. *)
Definition list_insert {A} (l : list A) (i : Z) (x : A) : list A :=
  let n := Z.of_nat (length l) in
  let w := if (i <? 0)%Z then Z.max 0 (i + n) else Z.min i n in
  take (Z.to_nat w) l ++ x :: drop (Z.to_nat w) l.

(** An ordered dictionary: entries in insertion order, keys distinct. *)
Definition dict (A : Type) := list (string * A).

Fixpoint dict_get {A} (k : string) (d : dict A) : option A :=
  match d with
  | [] => None
  | (k', v) :: d' => if String.eqb k k' then Some v else dict_get k d'
  end.

Definition dict_in {A} (k : string) (d : dict A) : bool :=
  match dict_get k d with
  | Some _ => true
  | None => false
  end.

(** [d[k] = v]: overwrite in place, or append a new entry. *)
Fixpoint dict_set {A} (k : string) (v : A) (d : dict A) : dict A :=
  match d with
  | [] => [(k, v)]
  | (k', v') :: d' =>
      if String.eqb k k' then (k, v) :: d' else (k', v') :: dict_set k v d'
  end.

(** [d[k]]. *)
Definition dict_item {A} (k : string) (d : dict A) : result A :=
  of_option KeyError (dict_get k d).

(** The float interface: the type, [float(s)] ([None] when Python raises
    ValueError) and [str(x)]. *)
Class PyFloat := {
  float : Type;
  float_of_str : string -> option float;
  str_of_float : float -> string
}.

End Py.
Export Py.

(** ** XML trees (lxml / ElementTree) *)

Module XML.

Inductive element :=
| Element (tag : string) (text : string) (children : list element).

Definition tag (e : element) : string :=
  match e with Element t _ _ => t end.
Definition text (e : element) : string :=
  match e with Element _ x _ => x end.
Definition children (e : element) : list element :=
  match e with Element _ _ cs => cs end.

(** [ET.SubElement(parent, tag)] followed by [el.text = data]: a new last
    child. *)
Definition SubElement (parent : element) (t : string) (data : string) : element :=
  Element (tag parent) (text parent) (children parent ++ [Element t data []]).

(** [parent.append(child)]. *)
Definition append (parent child : element) : element :=
  Element (tag parent) (text parent) (children parent ++ [child]).

(** [e.find(name)]: the first direct child with that tag, if any. *)
Definition find (name : string) (e : element) : option element :=
  List.find (fun c => String.eqb (tag c) name) (children e).

(** [ET.tostring(e)]; [e] may be the [None] that [find] returned, which the
    serializer rejects.  The serialized text stands for the tree. *)
Definition tostring (e : option element) : result element :=
  of_option SerializeError e.

Definition is_leaf (e : element) : bool :=
  match children e with
  | [] => true
  | _ :: _ => false
  end.

Fixpoint node_to_dict (nodes : list element) (dic : dict string)
  : result (dict string) :=
  match nodes with
  | [] => OK dic
  | n :: rest =>
      if is_leaf n then node_to_dict rest (dict_set (tag n) (text n) dic)
      else Raise OutsideContract
  end.

(** Modelled from the spec: [sunpy.util.xml.xml_to_dict] is not under src/.
    Its contract: given an XML fragment whose root's children are leaf
    elements, it returns a mapping from child tag to child text; the caller
    indexes the result by the root's tag.  Entries are assigned child by
    child; for a child that is not a leaf no result is specified. *)
Definition xml_to_dict (xmlstring : element) : result (dict (dict string)) :=
  inner ← node_to_dict (children xmlstring) [];
  OK [(tag xmlstring, inner)].

End XML.
Export XML.

(** ** JPEG 2000 containers (glymur) *)

Module JP2.

(** Box types other than the XML box. *)
Inductive box_kind := jP | ftyp | jp2h | jp2c | uuid | asoc | rreq.

Definition kind_id (k : box_kind) : string :=
  match k with
  | jP => "jP  "
  | ftyp => "ftyp"
  | jp2h => "jp2h"
  | jp2c => "jp2c"
  | uuid => "uuid"
  | asoc => "asoc"
  | rreq => "rreq"
  end.

Inductive jp2box :=
| Box (kind : box_kind) (payload : list Z)
| XMLBox (xml : element).

Definition box_id (b : jp2box) : string :=
  match b with
  | Box k _ => kind_id k
  | XMLBox _ => "xml "
  end.

(** [b.xml]. *)
Definition box_xml (b : jp2box) : result element :=
  match b with
  | XMLBox t => OK t
  | Box _ _ => Raise AttributeError
  end.

(** A sample array: rows of integer samples; the first axis is the list of
    rows. *)
Definition image := list (list Z).

(** [np.uint8(data)] on an integer array. *)
Definition uint8 (v : Z) : Z := (v mod 2 ^ 8)%Z.
Definition np_uint8 (data : image) : image := map (map uint8) data.

Record container := { box : list jp2box; codestream : image }.

(** The file system: the containers by path. *)
Abbreviation files := (gmap string container).

(** The box list of a freshly encoded container. *)
Class Jp2Codec := default_boxes : image -> list jp2box.

End JP2.
Export JP2.

(** ** The module [sunpy.io.jp2] *)

Section jp2.
Context `{PyFloat} `{Jp2Codec}.

(** Header values: the specification's data model has strings, integers,
    floats and booleans. *)
Inductive value :=
| VStr (s : string)
| VInt (n : Z)
| VFloat (x : float)
| VBool (b : bool).

(** [str(data)] for what [header.get(key)] returns ([None] when the key is
    missing). *)
Definition str (data : option value) : string :=
  match data with
  | Some (VStr s) => s
  | Some (VInt n) => str_int n
  | Some (VFloat x) => str_of_float x
  | Some (VBool true) => "True"
  | Some (VBool false) => "False"
  | None => "None"
  end.

(** What [header_to_xml] uses of its argument: iteration ([for key in
    header], which for a header with line-spanning cards yields a key more
    than once) and the accessor [header.get(key)]. *)
Record Header := {
  header_iter : list string;
  header_get : string -> option value
}.

(** A plain [dict] as a header. *)
Definition dict_header (d : dict value) : Header :=
  {| header_iter := d.*1; header_get := fun k => dict_get k d |}.

(** The parsed header ([FileHeader], an ordered dictionary). *)
Definition FileHeader := dict value.

Record HDPair := { data : image; header : FileHeader }.

(** [Jp2k(filepath)]: open an existing file. *)
Definition Jp2k (disk : files) (filepath : string) : result container :=
  of_option OSError (disk !! filepath).

(** [Jp2k(filename, data)]: encode [data] into a fresh container. *)
Definition Jp2k_create (disk : files) (filename : string) (data : image)
  : files * container :=
  let jp2 := {| box := default_boxes data; codestream := data |} in
  (<[filename := jp2]> disk, jp2).

(** [jp2.wrap(filename, boxes=boxes)]: the same codestream under the given
    box list, written to [filename]. *)
Definition wrap (disk : files) (jp2 : container) (filename : string)
    (boxes : list jp2box) : files :=
  <[filename := {| box := boxes; codestream := codestream jp2 |}]> disk.

(** [os.remove(path)]. *)
Definition os_remove (disk : files) (path : string) : files :=
  delete path disk.

(** Modelled from the spec: [sunpy.util.io.string_is_float] is not under
    src/; it holds when the string parses as a floating-point literal. *)
Definition string_is_float (s : string) : bool :=
  match float_of_str s with
  | Some _ => true
  | None => false
  end.

(** The body of the loop that fixes the types, for one value [v]. *)
Definition fix_type (v : string) : result value :=
  if isdigit v then OK (VInt (int v))
  else if string_is_float v then
    x ← of_option ValueError (float_of_str v);
    OK (VFloat x)
  else OK (VStr v).

Fixpoint fix_types (items : dict string) : result (dict value) :=
  match items with
  | [] => OK []
  | (k, v) :: rest =>
      v' ← fix_type v;
      rest' ← fix_types rest;
      OK ((k, v') :: rest')
  end.

(** [v.replace(newline, empty)]: only a string has the method. *)
Definition value_replace_newlines (v : value) : result value :=
  match v with
  | VStr s => OK (VStr (remove_newlines s))
  | _ => Raise AttributeError
  end.

(** The block that removes the newlines from the comment. *)
Definition strip_comment (pydict : dict value) : result (dict value) :=
  if dict_in "comment" pydict then
    c ← dict_item "comment" pydict;
    c' ← value_replace_newlines c;
    OK (dict_set "comment" c' pydict)
  else OK pydict.

Definition get_header (disk : files) (filepath : string)
  : result (list FileHeader) :=
  jp2 ← Jp2k disk filepath;
  let xml_box := filter (fun b => box_id b = "xml ") (box jp2) in
  box0 ← getitem xml_box 0;
  tree ← box_xml box0;
  xmlstring ← tostring (find "fits" tree);
  parsed ← xml_to_dict xmlstring;
  pydict ← dict_item "fits" parsed;
  (* Fix types *)
  pydict ← fix_types pydict;
  (* Remove newlines from comment *)
  pydict ← strip_comment pydict;
  (* Is this file a Helioviewer Project JPEG2000 file? *)
  let pydict :=
    dict_set "helioviewer"
      (VBool (bool_decide (is_Some (find "helioviewer" tree)))) pydict in
  OK [pydict].

Definition read (disk : files) (filepath : string) : result (list HDPair) :=
  header ← get_header disk filepath;
  jp2 ← Jp2k disk filepath;
  let data := reverse (codestream jp2) in
  header0 ← getitem header 0;
  OK [{| data := data; header := header0 |}].

(** One turn of the loop of [header_to_xml]; the state is the tree built so
    far and the set [already_added]. *)
Definition header_to_xml_step (header : Header)
    (st : element * gset string) (key : string) : element * gset string :=
  let '(fits, already_added) := st in
  if decide (key ∈ already_added) then st
  else
    let already_added := {[key]} ∪ already_added in
    let data := header_get header key in
    let data :=
      match data with
      | Some (VBool b) => if b then "1" else "0"
      | _ => str data
      end in
    (SubElement fits key data, already_added).

Definition header_to_xml (header : Header) : element :=
  let fits := Element "fits" "" [] in
  fst (foldl (header_to_xml_step header) (fits, ∅) (header_iter header)).

Definition generate_jp2_xmlbox (header : Header) : jp2box :=
  let header_xml := header_to_xml header in
  let meta := Element "meta" "" [] in
  let meta := append meta header_xml in
  XMLBox meta.

Definition get_tmp_jp2_file_name (filename : string) : string :=
  filename +:+ ".tmp.jp2".

Definition write (disk : files) (fname : string) (data : image)
    (header : Header) : files :=
  (* Create an initial jp2 file with the given data *)
  let tmpname := get_tmp_jp2_file_name fname in
  let jp2_data := np_uint8 data in
  let '(disk, jp2) := Jp2k_create disk tmpname jp2_data in
  (* Append the XML data to the header information *)
  let meta_boxes := box jp2 in
  let target_index := (Z.of_nat (length meta_boxes) - 1)%Z in
  let fits_box := generate_jp2_xmlbox header in
  let meta_boxes := list_insert meta_boxes target_index fits_box in
  (* Rewrite the jp2 file with the xml data in the header *)
  let disk := wrap disk jp2 fname meta_boxes in
  (* Remove the initial temporary file *)
  os_remove disk tmpname.

End jp2.

(** ** Instances to run the model on *)

Module Sample.

Fixpoint split_dot (s : string) : option (string * string) :=
  match s with
  | EmptyString => None
  | String c s' =>
      if Ascii.eqb c "." then Some (EmptyString, s')
      else match split_dot s' with
           | Some (a, b) => Some (String c a, b)
           | None => None
           end
  end.

(** Literals of the shape [digits] or [digits.digits], with an optional
    minus sign. *)
Definition is_decimal_literal (s : string) : bool :=
  let body :=
    match s with
    | String c s' => if Ascii.eqb c "-" then s' else s
    | EmptyString => s
    end in
  match split_dot body with
  | Some (a, b) => isdigit a && isdigit b
  | None => isdigit body
  end.

(** Floats as decimal literals, each standing for itself. *)
Definition literal_float : PyFloat :=
  {| float := string;
     float_of_str := fun s => if is_decimal_literal s then Some s else None;
     str_of_float := fun x => x |}.

(** The four boxes of a minimal JP2 file: signature, file type, header and
    codestream. *)
Definition minimal_codec : Jp2Codec :=
  fun _ => [Box jP []; Box ftyp []; Box jp2h []; Box jp2c []].

#[local] Existing Instance literal_float.
#[local] Existing Instance minimal_codec.

Definition sun_image : image := [[0; 128]; [255; 7]]%Z.

Definition two_lines : string := "line1" +:+ String newline "line2".

Definition sun_header : dict value :=
  [("telescop", VStr "SDO/AIA"); ("wavelnth", VInt 171);
   ("exptime", VFloat "2.9"); ("detected", VBool true);
   ("comment", VStr "level 1")].

(** A file as the Helioviewer Project writes it. *)
Definition hv_tree : element :=
  Element "meta" ""
    [Element "fits" ""
       [Element "NAXIS" "2" []; Element "CRPIX1" "2048.5" [];
        Element "TELESCOP" "SOHO" []; Element "comment" two_lines []];
     Element "helioviewer" "" []].

Definition hv_disk : files :=
  {[ "hv.jp2" :=
       {| box := [Box jP []; Box ftyp []; Box jp2h []; XMLBox hv_tree;
                  Box jp2c []];
          codestream := sun_image |} ]}.

Definition hv_header : FileHeader :=
  [("NAXIS", VInt 2); ("CRPIX1", VFloat "2048.5");
   ("TELESCOP", VStr "SOHO"); ("comment", VStr "line1line2");
   ("helioviewer", VBool true)].

(** A well-formed file without metadata. *)
Definition bare_disk : files :=
  {[ "bare.jp2" :=
       {| box := [Box jP []; Box ftyp []; Box jp2h []; Box jp2c []];
          codestream := sun_image |} ]}.

(** A file whose comment is a year. *)
Definition dated_tree : element :=
  Element "meta" ""
    [Element "fits" ""
       [Element "TELESCOP" "SOHO" []; Element "comment" "2011" []]].

Definition dated_disk : files :=
  {[ "dated.jp2" :=
       {| box := [Box jP []; Box ftyp []; Box jp2h []; XMLBox dated_tree;
                  Box jp2c []];
          codestream := sun_image |} ]}.

(** An image of 32 rows of 32 samples, all rows different. *)
Definition sun_image32 : image :=
  (fun i => (fun j => Z.of_nat ((i * 32 + j) mod 256)) <$> seq 0 32)
    <$> seq 0 32.

(** A codec whose default encode yields no box at all. *)
Definition empty_codec : Jp2Codec := fun _ => [].

(** A header with a number for a comment, and one with a negative field. *)
Definition dated_header : dict value :=
  [("telescop", VStr "SOHO"); ("comment", VInt 2011)].


(** A file with two XML boxes, the first without fits element. *)
Definition two_xml_disk : files :=
  {[ "two.jp2" :=
       {| box := [Box jP []; XMLBox (Element "meta" "" []); XMLBox hv_tree;
                  Box jp2c []];
          codestream := sun_image |} ]}.

End Sample.

(** ** Vocabulary of the specification *)

Section vocabulary.
Context `{PyFloat} `{Jp2Codec}.

(** The value the type-fixing loop leaves for the text [v]. *)
Definition coerce (v : string) : value :=
  if isdigit v then VInt (int v)
  else match float_of_str v with
       | Some x => VFloat x
       | None => VStr v
       end.

(** The text [header_to_xml] gives the element of a field. *)
Definition field_text (data : option value) : string :=
  match data with
  | Some (VBool true) => "1"
  | Some (VBool false) => "0"
  | _ => str data
  end.

Definition field_element (header : Header) (key : string) : element :=
  Element key (field_text (header_get header key)) [].

(** The distinct keys of an iteration, each at its first occurrence. *)
Fixpoint first_occurrences (keys : list string) : list string :=
  match keys with
  | [] => []
  | k :: rest => k :: filter (fun k' => k' ≠ k) (first_occurrences rest)
  end.

(** Saturation to [0 .. 255], which [np.uint8] does not do. *)
Definition clamp8 (v : Z) : Z := Z.max 0 (Z.min 255 v).

Definition fits_uint8 (data : image) : Prop :=
  Forall (Forall (fun v => (0 <= v < 256)%Z)) data.

(** No XML box among the boxes. *)
Definition xml_free (boxes : list jp2box) : Prop :=
  Forall (fun b => box_id b ≠ "xml ") boxes.

(** The element [name] occurs among the children of the root of the XML
    fragment. *)
Definition has_child (name : string) (tree : element) : bool :=
  existsb (fun c => String.eqb (tag c) name) (children tree).

(** The text is one the type-fixing loop turns into a number. *)
Definition numeric (s : string) : bool := isdigit s || string_is_float s.






(** The fields [get_header] finds in a file written from [hdr], after the
    types are fixed. *)
Definition parsed_fields (hdr : Header) : dict value :=
  (fun k => (k, coerce (field_text (header_get hdr k))))
    <$> first_occurrences (header_iter hdr).

(** The header has no comment, or one whose text does not look like a
    number. *)
Definition comment_is_text (hdr : Header) : Prop :=
  "comment" ∈ header_iter hdr →
  numeric (field_text (header_get hdr "comment")) = false.

End vocabulary.

(** ** Vocabulary for the effects of [write] and the results of [get_header] *)

Section results_vocabulary.
Context `{PyFloat} `{Jp2Codec}.

(** The container [write] leaves at the destination. *)
Definition written_container (data : image) (header : Header) : container :=
  {| box :=
       list_insert (default_boxes (np_uint8 data))
         (Z.of_nat (length (default_boxes (np_uint8 data))) - 1)
         (generate_jp2_xmlbox header);
     codestream := np_uint8 data |}.

Fixpoint has_newline (s : string) : bool :=
  match s with
  | EmptyString => false
  | String c s' => Ascii.eqb c newline || has_newline s'
  end.

(** The dictionary after the comment block, when that block goes through. *)
Definition stripped (pydict : dict value) : dict value :=
  match dict_get "comment" pydict with
  | Some (VStr s) => dict_set "comment" (VStr (remove_newlines s)) pydict
  | _ => pydict
  end.

(** The header [get_header] builds from the first XML box [tree] and the
    mapping [parsed] from its fits element. *)
Definition header_of (tree : element) (parsed : dict string) : FileHeader :=
  dict_set "helioviewer" (VBool (has_child "helioviewer" tree))
    (stripped (prod_map id coerce <$> parsed)).

(** The text is ASCII: on such text the test [isdigit] above is Python's
    [str.isdigit], and [int] is Python's [int]. *)
Definition is_ascii_char (c : ascii) : bool := nat_of_ascii c <? 128.

Fixpoint is_ascii (s : string) : bool :=
  match s with
  | EmptyString => true
  | String c s' => is_ascii_char c && is_ascii s'
  end.

(** Every text [header_to_xml] writes for the header is ASCII. *)
Definition ascii_texts (hdr : Header) : Prop :=
  Forall (fun k => is_ascii (field_text (header_get hdr k)) = true)
    (header_iter hdr).


(** Type coercion as the specification states it, for every value parsed
    from the fits element of the first XML box: the header returned holds the
    coercion of each. *)
Definition coerces_every_value (disk : files) (filepath : string) : Prop :=
  ∃ (c : container) (tree fits : element) (rest : list jp2box)
    (parsed : dict string) (h : FileHeader),
    disk !! filepath = Some c
    ∧ filter (fun b => box_id b = "xml ") (box c) = XMLBox tree :: rest
    ∧ find "fits" tree = Some fits
    ∧ node_to_dict (children fits) [] = OK parsed
    ∧ get_header disk filepath = OK [h]
    ∧ ∀ k v, dict_get k parsed = Some v → dict_get k h = Some (coerce v).

End results_vocabulary.

(** Run the steps of the error monad in a hypothesis. *)
Ltac run_in H := cbn [tostring of_option mbind result_bind] in H.

(** Membership in a list of keys that is written out. *)
Ltac elem_of_keys :=
  first [apply list_elem_of_here | apply list_elem_of_further; elem_of_keys].

(** A list of boxes that is written out holds no XML box. *)
Ltac no_xml_box := repeat constructor; discriminate.


(** ** Facts about the Python builtins *)

Section builtins.

Lemma string_length_app (s t : string) :
  String.length (s +:+ t) = String.length s + String.length t.
Proof. induction s as [|c s IH]; simpl; [done | by rewrite IH]. Qed.

(** The temporary file is never the destination itself. *)
Lemma get_tmp_jp2_file_name_ne (fname : string) :
  get_tmp_jp2_file_name fname ≠ fname.
Proof.
  intros Heq. apply (f_equal String.length) in Heq.
  unfold get_tmp_jp2_file_name in Heq. rewrite string_length_app in Heq.
  simpl in Heq. lia.
Qed.

(** Inserting at [len(l) - 1] puts the new item just before the last. *)
Lemma list_insert_before_last {A} (l : list A) (z x : A) :
  list_insert (l ++ [z]) (Z.of_nat (length (l ++ [z])) - 1) x = l ++ [x; z].
Proof.
  unfold list_insert. rewrite length_app. simpl.
  destruct (Z.ltb_spec (Z.of_nat (length l + 1) - 1) 0) as [Hneg|_]; [lia|].
  replace (Z.to_nat (Z.min _ _)) with (length l) by lia.
  by rewrite take_app_length, drop_app_length.
Qed.

(** On the empty list the same call leaves the new item alone. *)
Lemma list_insert_empty {A} (x : A) :
  list_insert [] (Z.of_nat (length (@nil A)) - 1) x = [x].
Proof. reflexivity. Qed.







End builtins.

(** ** Ordered dictionaries *)

Section dictionaries.
Context {A : Type}.
Implicit Types (d : dict A) (k : string) (v : A).

Lemma dict_get_None k d : dict_get k d = None ↔ k ∉ d.*1.
Proof.
  induction d as [|[k' v'] d IH]; simpl.
  - split; [intros _; apply not_elem_of_nil | done].
  - rewrite not_elem_of_cons. destruct (String.eqb_spec k k') as [->|Hne].
    + split; [done | intros [? _]; done].
    + rewrite IH. tauto.
Qed.



Lemma dict_set_fresh k v d : k ∉ d.*1 → dict_set k v d = d ++ [(k, v)].
Proof.
  induction d as [|[k' v'] d IH]; simpl; [done|].
  rewrite not_elem_of_cons. intros [Hne Hk].
  destruct (String.eqb_spec k k') as [->|_]; [done|]. by rewrite IH.
Qed.

Lemma dict_set_same k v d : dict_get k d = Some v → dict_set k v d = d.
Proof.
  induction d as [|[k' v'] d IH]; simpl; [done|].
  destruct (String.eqb_spec k k') as [->|_].
  - by intros [= ->].
  - intros Hget. by rewrite IH.
Qed.

Lemma dict_get_set_eq k v d : dict_get k (dict_set k v d) = Some v.
Proof.
  induction d as [|[k' v'] d IH]; simpl.
  - by rewrite String.eqb_refl.
  - destruct (String.eqb_spec k k') as [->|Hne]; simpl.
    + by rewrite String.eqb_refl.
    + destruct (String.eqb_spec k k'); [done | exact IH].
Qed.

Lemma dict_get_set_ne k k' v d :
  k ≠ k' → dict_get k' (dict_set k v d) = dict_get k' d.
Proof.
  intros Hne. induction d as [|[k0 v0] d IH]; simpl.
  - destruct (String.eqb_spec k' k); [congruence | done].
  - destruct (String.eqb_spec k k0) as [->|Hk0]; simpl.
    + destruct (String.eqb_spec k' k0); [congruence | done].
    + by rewrite IH.
Qed.

Lemma dict_get_fmap {B} (f : A → B) k d :
  dict_get k (prod_map id f <$> d) = f <$> dict_get k d.
Proof.
  induction d as [|[k' v'] d IH]; simpl; [done|].
  by destruct (String.eqb k k').
Qed.

(** A dictionary built from a list of distinct keys. *)
Lemma dict_get_tabulate (f : string → A) k (keys : list string) :
  k ∈ keys → dict_get k ((fun k => (k, f k)) <$> keys) = Some (f k).
Proof.
  induction keys as [|k' keys IH]; simpl; intros Hin.
  - by apply elem_of_nil in Hin.
  - destruct (String.eqb_spec k k') as [->|Hne]; [done|].
    apply elem_of_cons in Hin as [?|Hin]; [done | by apply IH].
Qed.

End dictionaries.

(** ** Serialising a header *)

Section serialising.
Context `{PyFloat}.


Lemma elem_of_first_occurrences (k : string) (keys : list string) :
  k ∈ first_occurrences keys ↔ k ∈ keys.
Proof.
  induction keys as [|k' keys IH]; simpl; [done|].
  rewrite !elem_of_cons, list_elem_of_filter, IH.
  destruct (decide (k = k')) as [->|Hne]; [tauto|].
  split; [intros [?|[_ ?]] | intros [?|?]]; auto.
Qed.

Lemma NoDup_first_occurrences (keys : list string) :
  NoDup (first_occurrences keys).
Proof.
  induction keys as [|k keys IH]; simpl; [constructor|].
  apply NoDup_cons. split; [|by apply NoDup_filter].
  rewrite list_elem_of_filter. intros [Hne _]. by apply Hne.
Qed.

Lemma sublist_first_occurrences (keys : list string) :
  first_occurrences keys `sublist_of` keys.
Proof.
  induction keys as [|k keys IH]; simpl; [done|].
  apply sublist_skip. etrans; [apply sublist_filter | exact IH].
Qed.


Lemma header_to_xml_step_seen (hdr : Header) (fits : element)
    (seen : gset string) (k : string) :
  k ∈ seen → header_to_xml_step hdr (fits, seen) k = (fits, seen).
Proof. intros Hin. unfold header_to_xml_step. by rewrite decide_True. Qed.

Lemma header_to_xml_step_new (hdr : Header) (fits : element)
    (seen : gset string) (k : string) :
  k ∉ seen →
  header_to_xml_step hdr (fits, seen) k
  = (append fits (field_element hdr k), {[k]} ∪ seen).
Proof.
  intros Hout. unfold header_to_xml_step. rewrite decide_False by done.
  unfold field_element, field_text, SubElement, append.
  by destruct (header_get hdr k) as [[| | |[]]|].
Qed.

(** The loop: from a tree with children [cs] and the set [seen], the keys
    not yet seen are appended, each once, in the order they first come. *)
Lemma header_to_xml_loop (hdr : Header) (keys : list string)
    (t x : string) (cs : list element) (seen : gset string) :
  fst (foldl (header_to_xml_step hdr) (Element t x cs, seen) keys)
  = Element t x
      (cs ++ (field_element hdr
                <$> filter (fun k => k ∉ seen) (first_occurrences keys))).
Proof.
  revert cs seen. induction keys as [|k keys IH]; intros cs seen.
  - simpl. by rewrite app_nil_r.
  - cbn [foldl first_occurrences].
    destruct (decide (k ∈ seen)) as [Hin|Hout].
    + rewrite header_to_xml_step_seen, IH by done.
      rewrite filter_cons_False by (intros Hk; by apply Hk).
      rewrite list_filter_filter. do 3 f_equal.
      apply list_filter_iff. intros k'. split; [|tauto].
      intros Hk'. split; [done|]. by intros ->.
    + rewrite header_to_xml_step_new by done. unfold append.
      cbn [tag text children].
      rewrite IH, filter_cons_True by done.
      rewrite list_filter_filter, <- app_assoc. cbn [fmap list_fmap app].
      do 4 f_equal. apply list_filter_iff. intros k'.
      rewrite not_elem_of_union, not_elem_of_singleton. tauto.
Qed.

Lemma header_to_xml_children (hdr : Header) :
  header_to_xml hdr
  = Element "fits" ""
      (field_element hdr <$> first_occurrences (header_iter hdr)).
Proof.
  unfold header_to_xml. rewrite header_to_xml_loop. simpl. do 2 f_equal.
  induction (first_occurrences (header_iter hdr)) as [|k l IH]; [done|].
  rewrite filter_cons_True by apply not_elem_of_empty. by rewrite IH.
Qed.

(** C6 -- header serialization.  [header_to_xml] returns a tree rooted at
    an element named fits whose children are leaves, one per distinct key
    of the header: the keys at their first occurrence in iteration order
    (each once, all of them, nothing sorted), each child named after its
    key, with text 1 or 0 for a boolean and [str] of the value otherwise. *)
Theorem header_to_xml_one_child_per_key (hdr : Header) :
  ∃ keys : list string,
    header_to_xml hdr = Element "fits" "" (field_element hdr <$> keys)
    ∧ keys = first_occurrences (header_iter hdr)
    ∧ NoDup keys
    ∧ (∀ k, k ∈ keys ↔ k ∈ header_iter hdr)
    ∧ keys `sublist_of` header_iter hdr
    ∧ ∀ k, field_element hdr k
           = Element k
               match header_get hdr k with
               | Some (VBool b) => if b then "1" else "0"
               | other => str other
               end [].
Proof.
  exists (first_occurrences (header_iter hdr)).
  split; [apply header_to_xml_children|]. split; [done|].
  split; [apply NoDup_first_occurrences|].
  split; [intros k; apply elem_of_first_occurrences|].
  split; [apply sublist_first_occurrences|].
  intros k. unfold field_element, field_text.
  by destruct (header_get hdr k) as [[| | |[]]|].
Qed.

End serialising.

(** ** Writing a file *)

Section writing.
Context `{PyFloat} `{Jp2Codec}.

Lemma write_lookup (disk : files) (fname : string) (data : image)
    (hdr : Header) :
  write disk fname data hdr !! fname
  = Some {| box :=
              list_insert (default_boxes (np_uint8 data))
                (Z.of_nat (length (default_boxes (np_uint8 data))) - 1)
                (generate_jp2_xmlbox hdr);
            codestream := np_uint8 data |}.
Proof.
  unfold write, Jp2k_create, wrap, os_remove. cbn [box codestream].
  rewrite lookup_delete_ne by apply get_tmp_jp2_file_name_ne.
  by rewrite lookup_insert_eq.
Qed.

(** The temporary file is gone once the destination is written. *)
Lemma write_removes_tmp (disk : files) (fname : string) (data : image)
    (hdr : Header) :
  write disk fname data hdr !! get_tmp_jp2_file_name fname = None.
Proof. unfold write, Jp2k_create, wrap, os_remove. apply lookup_delete_eq. Qed.

Lemma np_uint8_fits (data : image) : fits_uint8 (np_uint8 data).
Proof.
  unfold fits_uint8, np_uint8. apply Forall_fmap, Forall_true. intros row.
  apply Forall_fmap, Forall_true. intros v. unfold uint8. simpl.
  apply Z.mod_pos_bound. lia.
Qed.

(** Samples that fit in 8 bits are written as they are. *)
Lemma np_uint8_id (data : image) : fits_uint8 data → np_uint8 data = data.
Proof.
  unfold fits_uint8, np_uint8. induction 1 as [|row data Hrow _ IH]; [done|].
  cbn [map]. f_equal; [|exact IH]. clear IH.
  induction Hrow as [|v row Hv _ IH]; [done|].
  cbn [map]. f_equal; [|exact IH]. unfold uint8. by apply Z.mod_small.
Qed.

(** C5 -- box ordering.  When the codec's default encode of the samples
    yields at least one box, the destination container holds those boxes
    with the XML metadata box inserted just before the last one: the last
    box is the last box of the default encode, the metadata box is the
    second-to-last, and nothing else changed. *)
Theorem write_box_ordering (disk : files) (fname : string) (data : image)
    (hdr : Header) :
  default_boxes (np_uint8 data) ≠ [] →
  ∃ (c : container) (front : list jp2box) (final : jp2box),
    write disk fname data hdr !! fname = Some c
    ∧ default_boxes (np_uint8 data) = front ++ [final]
    ∧ box c = front ++ [generate_jp2_xmlbox hdr; final]
    ∧ last (box c) = last (default_boxes (np_uint8 data))
    ∧ box c !! (length (box c) - 2) = Some (generate_jp2_xmlbox hdr).
Proof.
  intros Hne. rewrite write_lookup.
  destruct (default_boxes (np_uint8 data)) as [|b bs] eqn:Hboxes
    using rev_ind; [done|]. clear IHbs Hne.
  eexists _, bs, b. split; [done|]. split; [done|].
  cbn [box]. rewrite list_insert_before_last.
  split; [done|]. split.
  - by rewrite !last_app.
  - rewrite length_app. cbn [length].
    apply list_lookup_middle. lia.
Qed.

(** C7 -- pixel coercion.  The samples the destination container holds are
    the input samples modulo 2^8, each within 0..255; this is wrap-around,
    not saturation: 300 is stored as 44 and -1 as 255, where clamping
    would give 255 and 0. *)
Theorem write_wraps_samples (disk : files) (fname : string) (data : image)
    (hdr : Header) :
  ∃ c : container,
    write disk fname data hdr !! fname = Some c
    ∧ codestream c = map (map (fun v => (v mod 2 ^ 8)%Z)) data
    ∧ fits_uint8 (codestream c)
    ∧ (uint8 300 = 44 ∧ clamp8 300 = 255)%Z
    ∧ (uint8 (-1) = 255 ∧ clamp8 (-1) = 0)%Z.
Proof.
  rewrite write_lookup. eexists. split; [done|]. cbn [codestream].
  split; [done|]. split; [apply np_uint8_fits|]. by vm_compute.
Qed.

End writing.

(** ** Parsing a header *)

Section parsing.
Context `{PyFloat}.

Lemma fix_type_coerce (v : string) : fix_type v = OK (coerce v).
Proof.
  unfold fix_type, coerce, string_is_float.
  destruct (isdigit v); [done|]. by destruct (float_of_str v).
Qed.

Lemma fix_types_coerce (items : dict string) :
  fix_types items = OK (prod_map id coerce <$> items).
Proof.
  induction items as [|[k v] items IH]; [done|].
  cbn [fix_types]. by rewrite fix_type_coerce, IH.
Qed.

Lemma coerce_text (s : string) : numeric s = false → coerce s = VStr s.
Proof.
  unfold numeric, coerce, string_is_float. intros Hnum.
  apply orb_false_elim in Hnum as [-> Hfloat].
  by destruct (float_of_str s).
Qed.

Lemma coerce_numeric (s : string) :
  numeric s = true → ∀ s', coerce s ≠ VStr s'.
Proof.
  unfold numeric, coerce, string_is_float. intros Hnum s'.
  destruct (isdigit s); [done|]. by destruct (float_of_str s).
Qed.

Lemma find_tag (name : string) (e x : element) :
  find name e = Some x → tag x = name.
Proof.
  unfold find. intros Hfind. apply find_some in Hfind as [_ Heq].
  by apply String.eqb_eq.
Qed.

Lemma find_has_child (name : string) (e : element) :
  bool_decide (is_Some (find name e)) = has_child name e.
Proof.
  unfold find, has_child. induction (children e) as [|c cs IH]; [done|].
  cbn [List.find existsb]. by destruct (String.eqb (tag c) name).
Qed.

Lemma strip_comment_cases (pydict : dict value) :
  strip_comment pydict
  = match dict_get "comment" pydict with
    | None => OK pydict
    | Some (VStr s) =>
        OK (dict_set "comment" (VStr (remove_newlines s)) pydict)
    | Some _ => Raise AttributeError
    end.
Proof.
  unfold strip_comment, dict_in, dict_item.
  by destruct (dict_get "comment" pydict) as [[| | |]|].
Qed.

(** A list of boxes without XML box leaves the comprehension empty. *)
Lemma xml_free_filter (boxes : list jp2box) :
  xml_free boxes → filter (fun b => box_id b = "xml ") boxes = [].
Proof.
  induction 1 as [|b boxes Hb _ IH]; [done|].
  by rewrite filter_cons_False.
Qed.

(** [get_header] from the first XML box on. *)
Lemma get_header_first_xml (disk : files) (filepath : string)
    (c : container) (tree : element) (rest : list jp2box) :
  disk !! filepath = Some c →
  filter (fun b => box_id b = "xml ") (box c) = XMLBox tree :: rest →
  get_header disk filepath
  = fits ← tostring (find "fits" tree);
    parsed ← node_to_dict (children fits) [];
    pydict ← strip_comment (prod_map id coerce <$> parsed);
    OK [dict_set "helioviewer"
          (VBool (has_child "helioviewer" tree)) pydict].
Proof.
  intros Hdisk Hxml. unfold get_header, Jp2k. rewrite Hdisk.
  cbn [of_option mbind result_bind]. rewrite Hxml.
  cbn [getitem lookup list_lookup of_option box_xml mbind result_bind].
  destruct (find "fits" tree) as [fits|] eqn:Hfits; [|done].
  cbn [tostring of_option mbind result_bind]. unfold xml_to_dict.
  destruct (node_to_dict (children fits) []) as [parsed|e]; [|done].
  cbn [mbind result_bind dict_item dict_get]. rewrite (find_tag _ _ _ Hfits).
  change (dict_item "fits" [("fits", parsed)]) with (OK parsed).
  cbn [mbind result_bind]. rewrite fix_types_coerce.
  cbn [mbind result_bind]. by rewrite find_has_child.
Qed.

(** When [get_header] returns, the file exists and has an XML box. *)
Lemma get_header_OK_inv (disk : files) (filepath : string)
    (hs : list FileHeader) :
  get_header disk filepath = OK hs →
  ∃ (c : container) (tree : element) (rest : list jp2box),
    disk !! filepath = Some c
    ∧ filter (fun b => box_id b = "xml ") (box c) = XMLBox tree :: rest.
Proof.
  unfold get_header, Jp2k. destruct (disk !! filepath) as [c|]; [|done].
  cbn [of_option mbind result_bind].
  destruct (filter _ (box c)) as [|[k pl|tree] rest] eqn:Hxml;
    cbn [getitem lookup list_lookup of_option box_xml mbind result_bind];
    [done|done|].
  intros _. by eexists c, tree, rest.
Qed.

End parsing.

(** ** What [get_header] returns and raises *)

Section header_properties.
Context `{PyFloat}.

(** C2 -- missing metadata, as the code has it.  For a container whose box
    list holds no XML box, [get_header] and [read] raise IndexError: the
    list of XML boxes is empty and its first item is asked for. *)
Theorem get_header_without_xml_box (disk : files) (filepath : string)
    (c : container) :
  disk !! filepath = Some c →
  xml_free (box c) →
  get_header disk filepath = Raise IndexError
  ∧ read disk filepath = Raise IndexError.
Proof.
  intros Hdisk Hfree.
  assert (get_header disk filepath = Raise IndexError) as Hget.
  { unfold get_header, Jp2k. rewrite Hdisk. cbn [of_option mbind result_bind].
    by rewrite (xml_free_filter _ Hfree). }
  split; [exact Hget|]. unfold read. by rewrite Hget.
Qed.

(** C4 -- type coercion, as the code has it.  When [get_header] returns,
    every field parsed from the fits element under a key other than comment
    and helioviewer, with an ASCII text [v], holds: the integer [int v] if
    [v] is all digits; else the float [float(v)] if [v] parses as a float;
    else [v] itself.  The comment is coerced in the same way and then, being
    a string, returned without its newlines; the key helioviewer holds the
    marker, whatever the fits element held under it.  So 42 becomes an
    integer, 3.14 a float wherever [float] parses it, and hello stays a
    string wherever it does not. *)
Theorem get_header_coerces_values (disk : files) (filepath : string)
    (hs : list FileHeader) :
  (get_header disk filepath = OK hs →
   ∃ (c : container) (tree fits : element) (rest : list jp2box)
     (parsed : dict string) (h : FileHeader),
     disk !! filepath = Some c
     ∧ filter (fun b => box_id b = "xml ") (box c) = XMLBox tree :: rest
     ∧ find "fits" tree = Some fits
     ∧ node_to_dict (children fits) [] = OK parsed
     ∧ hs = [h]
     ∧ (∀ k v, dict_get k parsed = Some v →
               k ≠ "comment" → k ≠ "helioviewer" → is_ascii v = true →
               dict_get k h
               = Some (if isdigit v then VInt (int v)
                       else match float_of_str v with
                            | Some x => VFloat x
                            | None => VStr v
                            end))
     ∧ (∀ v, dict_get "comment" parsed = Some v → is_ascii v = true →
             isdigit v = false ∧ float_of_str v = None
             ∧ dict_get "comment" h = Some (VStr (remove_newlines v)))
     ∧ dict_get "helioviewer" h = Some (VBool (has_child "helioviewer" tree)))
  ∧ fix_type "42" = OK (VInt 42)
  ∧ (∀ x, float_of_str "3.14" = Some x → fix_type "3.14" = OK (VFloat x))
  ∧ (float_of_str "hello" = None → fix_type "hello" = OK (VStr "hello")).
Proof.
  split; [|split; [done|split]].
  - intros Hget.
    destruct (get_header_OK_inv _ _ _ Hget) as (c & tree & rest & Hdisk & Hxml).
    rewrite (get_header_first_xml _ _ _ _ _ Hdisk Hxml) in Hget.
    destruct (find "fits" tree) as [fits|] eqn:Hfits; run_in Hget; [|done].
    destruct (node_to_dict (children fits) []) as [parsed|] eqn:Hparsed;
      run_in Hget; [|done].
    destruct (strip_comment (prod_map id coerce <$> parsed))
      as [pydict|] eqn:Hstrip; run_in Hget; [|done].
    injection Hget as <-.
    eexists c, tree, fits, rest, parsed, _. do 5 (split; [done|]).
    rewrite strip_comment_cases, dict_get_fmap in Hstrip.
    split; [|split; [|apply dict_get_set_eq]].
    + intros k v Hk Hcomment Hhelio _.
      rewrite dict_get_set_ne by done.
      assert (dict_get k pydict
              = dict_get k (prod_map id coerce <$> parsed)) as ->.
      { destruct (dict_get "comment" parsed) as [s|];
          cbn [fmap option_fmap option_map] in Hstrip;
          [|by injection Hstrip as <-].
        destruct (coerce s) as [s'| | |]; try done.
        injection Hstrip as <-. by rewrite dict_get_set_ne. }
      by rewrite dict_get_fmap, Hk.
    + intros v Hv _. rewrite Hv in Hstrip.
      cbn [fmap option_fmap option_map] in Hstrip.
      rewrite dict_get_set_ne by done. unfold coerce in Hstrip.
      destruct (isdigit v); [done|].
      destruct (float_of_str v); [done|].
      injection Hstrip as <-. do 2 (split; [done|]). apply dict_get_set_eq.
  - intros x Hx. rewrite fix_type_coerce. unfold coerce. by rewrite Hx.
  - intros Hx. rewrite fix_type_coerce. unfold coerce. by rewrite Hx.
Qed.

(** C9 -- helioviewer marker.  The header [get_header] returns holds the
    key helioviewer with a boolean: true exactly when the root of the XML
    fragment (the first XML box of the container) has a child element named
    helioviewer, a sibling of the fits element, whatever it contains. *)
Theorem get_header_helioviewer (disk : files) (filepath : string)
    (hs : list FileHeader) :
  get_header disk filepath = OK hs →
  ∃ (c : container) (tree : element) (rest : list jp2box) (h : FileHeader),
    disk !! filepath = Some c
    ∧ filter (fun b => box_id b = "xml ") (box c) = XMLBox tree :: rest
    ∧ hs = [h]
    ∧ dict_get "helioviewer" h = Some (VBool (has_child "helioviewer" tree))
    ∧ (has_child "helioviewer" tree = true
       ↔ ∃ e, e ∈ children tree ∧ tag e = "helioviewer").
Proof.
  intros Hget.
  destruct (get_header_OK_inv _ _ _ Hget) as (c & tree & rest & Hdisk & Hxml).
  rewrite (get_header_first_xml _ _ _ _ _ Hdisk Hxml) in Hget.
  destruct (find "fits" tree) as [fits|]; run_in Hget; [|done].
  destruct (node_to_dict _ _) as [parsed|]; run_in Hget; [|done].
  destruct (strip_comment _) as [pydict|]; run_in Hget; [|done].
  injection Hget as <-.
  eexists c, tree, rest, _. do 3 (split; [done|]).
  split; [apply dict_get_set_eq|].
  unfold has_child. rewrite existsb_exists. split.
  - intros (e & Hin & Htag). exists e.
    split; [by apply list_elem_of_In | by apply String.eqb_eq].
  - intros (e & Hin & Htag). exists e.
    split; [by apply list_elem_of_In | by apply String.eqb_eq].
Qed.


End header_properties.

(** ** Writing, then reading *)

Section round_trips.
Context `{PyFloat} `{Jp2Codec}.

(** Among boxes that hold no XML box, the inserted one is the only XML
    box, wherever it is inserted. *)
Lemma filter_xml_list_insert (boxes : list jp2box) (i : Z) (tree : element) :
  xml_free boxes →
  filter (fun b => box_id b = "xml ") (list_insert boxes i (XMLBox tree))
  = [XMLBox tree].
Proof.
  intros Hfree. unfold list_insert.
  rewrite filter_app, filter_cons_True by done.
  rewrite (xml_free_filter (take _ _)) by by apply Forall_take.
  by rewrite (xml_free_filter (drop _ _)) by by apply Forall_drop.
Qed.

(** Leaves with distinct tags become one entry each, in order. *)
Lemma node_to_dict_leaves (f : string → string) (keys : list string)
    (dic : dict string) :
  NoDup keys →
  (∀ k, k ∈ keys → k ∉ dic.*1) →
  node_to_dict ((fun k => Element k (f k) []) <$> keys) dic
  = OK (dic ++ ((fun k => (k, f k)) <$> keys)).
Proof.
  revert dic. induction keys as [|k keys IH]; intros dic Hnd Hfresh.
  - simpl. by rewrite app_nil_r.
  - apply NoDup_cons in Hnd as [Hk Hnd].
    cbn [fmap list_fmap node_to_dict is_leaf children tag text].
    rewrite dict_set_fresh by (apply Hfresh; left).
    rewrite IH; [by rewrite <- app_assoc | done |].
    intros k' Hk'. rewrite fmap_app, not_elem_of_app. split.
    + apply Hfresh. by right.
    + cbn. rewrite list_elem_of_singleton. by intros ->.
Qed.

Lemma find_field (hdr : Header) (k : string) (keys : list string) :
  k ∈ keys →
  List.find (fun c => String.eqb (tag c) k) (field_element hdr <$> keys)
  = Some (field_element hdr k).
Proof.
  induction keys as [|k' keys IH]; intros Hin.
  - by apply elem_of_nil in Hin.
  - cbn [fmap list_fmap List.find field_element tag].
    destruct (String.eqb_spec k' k) as [->|Hne]; [done|].
    apply elem_of_cons in Hin as [?|Hin]; [done | by apply IH].
Qed.

(** [get_header] on a file that [write] produced. *)
Lemma get_header_write (disk : files) (fname : string) (data : image)
    (hdr : Header) :
  xml_free (default_boxes (np_uint8 data)) →
  get_header (write disk fname data hdr) fname
  = pydict ← strip_comment (parsed_fields hdr);
    OK [dict_set "helioviewer" (VBool false) pydict].
Proof.
  intros Hfree.
  rewrite (get_header_first_xml _ _ _
             (Element "meta" "" [header_to_xml hdr]) []
             (write_lookup disk fname data hdr)).
  2: { cbn [box]. by apply filter_xml_list_insert. }
  rewrite header_to_xml_children.
  change (find "fits" _) with (Some
    (Element "fits" ""
       (field_element hdr <$> first_occurrences (header_iter hdr)))).
  cbn [tostring of_option mbind result_bind children].
  unfold field_element at 1.
  rewrite (node_to_dict_leaves (fun k => field_text (header_get hdr k)));
    [|apply NoDup_first_occurrences|intros k _; apply not_elem_of_nil].
  cbn [mbind result_bind app]. rewrite <- list_fmap_compose.
  done.
Qed.

Lemma parsed_fields_keys (hdr : Header) :
  (parsed_fields hdr).*1 = first_occurrences (header_iter hdr).
Proof.
  unfold parsed_fields. rewrite <- list_fmap_compose. apply list_fmap_id.
Qed.

Lemma dict_get_parsed_fields (hdr : Header) (k : string) :
  k ∈ header_iter hdr →
  dict_get k (parsed_fields hdr)
  = Some (coerce (field_text (header_get hdr k))).
Proof.
  intros Hin. unfold parsed_fields.
  rewrite (dict_get_tabulate
             (fun k => coerce (field_text (header_get hdr k)))); [done|].
  by apply elem_of_first_occurrences.
Qed.












End round_trips.

(** ** The properties on sample files *)

Section samples.
Import Sample.
#[local] Existing Instance literal_float.
#[local] Existing Instance minimal_codec.



Lemma get_header_without_xml_box_sample :
  get_header bare_disk "bare.jp2" = Raise IndexError
  ∧ read bare_disk "bare.jp2" = Raise IndexError.
Proof.
  apply (get_header_without_xml_box bare_disk "bare.jp2"
           {| box := [Box jP []; Box ftyp []; Box jp2h []; Box jp2c []];
              codestream := sun_image |}).
  - reflexivity.
  - repeat constructor; discriminate.
Defined.

(** C2, as stated, fails: on a well-formed file without XML box the error
    is not MissingMetadataError. *)
Lemma get_header_not_missing_metadata_error :
  xml_free [Box jP []; Box ftyp []; Box jp2h []; Box jp2c []]
  ∧ get_header bare_disk "bare.jp2" ≠ Raise MissingMetadataError.
Proof.
  split; [repeat constructor; discriminate|].
  vm_compute. discriminate.
Qed.



Lemma get_header_coerces_values_sample :
  ∃ h : FileHeader,
    get_header hv_disk "hv.jp2" = OK [h]
    ∧ dict_get "NAXIS" h = Some (VInt 2)
    ∧ dict_get "CRPIX1" h = Some (VFloat "2048.5")
    ∧ dict_get "TELESCOP" h = Some (VStr "SOHO")
    ∧ dict_get "comment" h = Some (VStr "line1line2")
    ∧ fix_type "3.14" = OK (VFloat "3.14")
    ∧ fix_type "hello" = OK (VStr "hello").
Proof.
  destruct (get_header_coerces_values hv_disk "hv.jp2" [hv_header])
    as (Hfields & _ & Hfloat & Hstr).
  destruct (Hfields eq_refl)
    as (c & tree & fits & rest & parsed & h
        & Hdisk & Hxml & Hfits & Hparsed & Hh & Hcoerced & Hcomment & _).
  vm_compute in Hdisk. injection Hdisk as <-.
  vm_compute in Hxml. injection Hxml as <- <-.
  vm_compute in Hfits. injection Hfits as <-.
  vm_compute in Hparsed. injection Hparsed as <-.
  exists h. split; [by rewrite <- Hh|].
  split; [by apply (Hcoerced "NAXIS" "2")|].
  split; [by apply (Hcoerced "CRPIX1" "2048.5")|].
  split; [by apply (Hcoerced "TELESCOP" "SOHO")|].
  split; [by apply (Hcomment two_lines)|].
  split; [by apply Hfloat | by apply Hstr].
Defined.

(** C4, as stated, fails: the comment of this file is neither all digits nor
    a float, yet the header does not hold it unchanged; its newline is
    gone. *)
Lemma comment_is_not_left_unchanged :
  ¬ coerces_every_value hv_disk "hv.jp2".
Proof.
  intros (c & tree & fits & rest & parsed & h
          & Hdisk & Hxml & Hfits & Hparsed & Hget & Hcoerced).
  vm_compute in Hdisk. injection Hdisk as <-.
  vm_compute in Hxml. injection Hxml as <- <-.
  vm_compute in Hfits. injection Hfits as <-.
  vm_compute in Hparsed. injection Hparsed as <-.
  vm_compute in Hget. injection Hget as <-.
  specialize (Hcoerced "comment" two_lines eq_refl).
  vm_compute in Hcoerced. discriminate.
Qed.

Lemma write_box_ordering_sample :
  ∃ c : container,
    write ∅ "sun.jp2" sun_image (dict_header sun_header) !! "sun.jp2"
    = Some c
    ∧ box c = [Box jP []; Box ftyp []; Box jp2h [];
               generate_jp2_xmlbox (dict_header sun_header); Box jp2c []]
    ∧ last (box c) = Some (Box jp2c [])
    ∧ box c !! 3 = Some (generate_jp2_xmlbox (dict_header sun_header)).
Proof.
  destruct (write_box_ordering ∅ "sun.jp2" sun_image
              (dict_header sun_header))
    as (c & front & final & Hc & Hdefault & Hbox & Hlast & Hxml);
    [discriminate|].
  change (default_boxes (np_uint8 sun_image))
    with ([Box jP []; Box ftyp []; Box jp2h []] ++ [Box jp2c []])
    in Hdefault.
  apply app_inj_tail in Hdefault as [<- <-].
  exists c. split; [exact Hc|]. split; [exact Hbox|].
  split; [exact Hlast|]. rewrite Hbox. reflexivity.
Defined.

(** C8 -- comment newline stripping: where the code departs from it.  The
    comment of this file is the text 2011; the type-fixing loop has made it
    an integer by the time the newlines are to be removed, and [get_header]
    raises AttributeError instead of returning the comment. *)
Theorem get_header_numeric_comment_raises :
  get_header dated_disk "dated.jp2" = Raise AttributeError
  ∧ get_header (write ∅ "sun.jp2" sun_image
                  (dict_header [("comment", VStr "2011")])) "sun.jp2"
    = Raise AttributeError.
Proof. split; reflexivity. Qed.

Lemma get_header_helioviewer_sample :
  ∃ h : FileHeader,
    get_header hv_disk "hv.jp2" = OK [h]
    ∧ dict_get "helioviewer" h = Some (VBool true).
Proof.
  destruct (get_header_helioviewer hv_disk "hv.jp2" [hv_header] eq_refl)
    as (c & tree & rest & h & Hdisk & Hxml & Hh & Hmarker & _).
  vm_compute in Hdisk. injection Hdisk as <-.
  vm_compute in Hxml. injection Hxml as <- <-.
  exists h. split; [by rewrite <- Hh | exact Hmarker].
Defined.


End samples.

(** ** The file system after [write] *)

Section file_system.
Context `{PyFloat} `{Jp2Codec}.

Lemma write_insert_delete (disk : files) (fname : string) (data : image)
    (hdr : Header) :
  write disk fname data hdr
  = <[fname := written_container data hdr]>
      (delete (get_tmp_jp2_file_name fname) disk).
Proof.
  unfold write, Jp2k_create, wrap, os_remove, written_container.
  cbn [box codestream].
  rewrite delete_insert_ne by apply get_tmp_jp2_file_name_ne.
  by rewrite delete_insert_eq.
Qed.

(** X1 -- the effect on the file system of a call of [write] that returns:
    the destination holds the new container, whatever was there; the path of
    the temporary file holds nothing, even if a file was there before the
    call; every other path is untouched. *)
Theorem write_effect (disk : files) (fname path : string) (data : image)
    (hdr : Header) :
  write disk fname data hdr !! path
  = if decide (path = fname) then Some (written_container data hdr)
    else if decide (path = get_tmp_jp2_file_name fname) then None
    else disk !! path.
Proof.
  rewrite write_insert_delete, lookup_insert, lookup_delete.
  repeat case_decide; congruence.
Qed.

(** X2 -- writing twice to the same destination: the second call decides the
    result; nothing of the first is left. *)
Theorem write_write (disk : files) (fname : string) (data1 data2 : image)
    (hdr1 hdr2 : Header) :
  write (write disk fname data1 hdr1) fname data2 hdr2
  = write disk fname data2 hdr2.
Proof.
  rewrite !write_insert_delete.
  rewrite delete_insert_ne by apply get_tmp_jp2_file_name_ne.
  by rewrite delete_delete_eq, insert_insert_eq.
Qed.

Lemma get_header_same_file (disk1 disk2 : files) (p1 p2 : string) :
  disk1 !! p1 = disk2 !! p2 → get_header disk1 p1 = get_header disk2 p2.
Proof. intros Heq. unfold get_header, Jp2k. by rewrite Heq. Qed.

Lemma read_same_file (disk1 disk2 : files) (p1 p2 : string) :
  disk1 !! p1 = disk2 !! p2 → read disk1 p1 = read disk2 p2.
Proof.
  intros Heq. unfold read, Jp2k.
  by rewrite (get_header_same_file _ _ _ _ Heq), Heq.
Qed.

(** X3 -- a file that is neither the destination nor the temporary file of a
    [write] reads after the call as it did before. *)
Theorem write_preserves_other_files (disk : files) (fname path : string)
    (data : image) (hdr : Header) :
  path ≠ fname →
  path ≠ get_tmp_jp2_file_name fname →
  get_header (write disk fname data hdr) path = get_header disk path
  ∧ read (write disk fname data hdr) path = read disk path.
Proof.
  intros Hdest Htmp.
  assert (write disk fname data hdr !! path = disk !! path) as Hsame.
  { rewrite write_insert_delete, lookup_insert_ne, lookup_delete_ne; done. }
  split; [by apply get_header_same_file | by apply read_same_file].
Qed.

Lemma string_app_inv_tail (s1 s2 t : string) :
  s1 +:+ t = s2 +:+ t → s1 = s2.
Proof.
  revert s2. induction s1 as [|c s1 IH]; intros [|c' s2] Heq; [done|..].
  - apply (f_equal String.length) in Heq.
    rewrite !string_length_app in Heq. simpl in Heq. lia.
  - apply (f_equal String.length) in Heq.
    rewrite !string_length_app in Heq. simpl in Heq. lia.
  - simpl in Heq. injection Heq as -> Heq. f_equal. by apply IH.
Qed.

(** X4 -- temporary names: two destinations share their temporary file only
    if they are the same destination, and the temporary file of a
    destination is never that destination. *)
Theorem get_tmp_jp2_file_name_inj (fname1 fname2 : string) :
  (get_tmp_jp2_file_name fname1 = get_tmp_jp2_file_name fname2
   ↔ fname1 = fname2)
  ∧ get_tmp_jp2_file_name fname1 ≠ fname1.
Proof.
  split; [|apply get_tmp_jp2_file_name_ne].
  split; [apply string_app_inv_tail | by intros ->].
Qed.

Lemma list_insert_split {A} (l : list A) (i : Z) (x : A) :
  ∃ w, w ≤ length l ∧ list_insert l i x = take w l ++ x :: drop w l.
Proof.
  unfold list_insert. cbv zeta.
  exists (Z.to_nat (if (i <? 0)%Z then Z.max 0 (i + Z.of_nat (length l))
                    else Z.min i (Z.of_nat (length l)))).
  split; [|done]. destruct (Z.ltb_spec i 0); lia.
Qed.

(** X5 -- the box list of the destination, whatever the default encode
    yields: one box more than the default list, the default boxes all there
    in their order, the XML metadata box among them; over an empty default
    list the metadata box stands alone. *)
Theorem write_keeps_default_boxes (disk : files) (fname : string)
    (data : image) (hdr : Header) :
  ∃ c : container,
    write disk fname data hdr !! fname = Some c
    ∧ length (box c) = S (length (default_boxes (np_uint8 data)))
    ∧ default_boxes (np_uint8 data) `sublist_of` box c
    ∧ generate_jp2_xmlbox hdr ∈ box c
    ∧ (default_boxes (np_uint8 data) = [] → box c = [generate_jp2_xmlbox hdr]).
Proof.
  rewrite write_lookup. eexists. split; [done|]. cbn [box].
  destruct (list_insert_split (default_boxes (np_uint8 data))
              (Z.of_nat (length (default_boxes (np_uint8 data))) - 1)
              (generate_jp2_xmlbox hdr)) as (w & Hw & Hins).
  split; [|split; [|split]].
  - rewrite Hins, length_app, length_take. cbn [length].
    rewrite length_drop. lia.
  - rewrite Hins. rewrite <- (take_drop w (default_boxes _)) at 1.
    apply sublist_app; [done|]. by apply sublist_cons.
  - rewrite Hins. apply elem_of_app. right. left.
  - intros Hempty. by rewrite Hempty.
Qed.

Lemma np_uint8_idemp (data : image) : np_uint8 (np_uint8 data) = np_uint8 data.
Proof. apply np_uint8_id, np_uint8_fits. Qed.

Lemma np_uint8_reverse (data : image) :
  np_uint8 (reverse data) = reverse (np_uint8 data).
Proof. unfold np_uint8. apply (fmap_reverse (map uint8)). Qed.

(** X6 -- the destination holds the samples as they were given exactly when
    every sample fits in 8 bits. *)
Theorem write_stores_samples_unchanged (disk : files) (fname : string)
    (data : image) (hdr : Header) :
  ∃ c : container,
    write disk fname data hdr !! fname = Some c
    ∧ (codestream c = data ↔ fits_uint8 data).
Proof.
  rewrite write_lookup. eexists. split; [done|]. cbn [codestream]. split.
  - intros <-. apply np_uint8_fits.
  - apply np_uint8_id.
Qed.

End file_system.

(** ** When [get_header] returns, and what it raises *)

Section results.
Context `{PyFloat}.

Lemma strip_comment_coerced (parsed : dict string) :
  strip_comment (prod_map id coerce <$> parsed)
  = match dict_get "comment" parsed with
    | Some s =>
        if numeric s then Raise AttributeError
        else OK (stripped (prod_map id coerce <$> parsed))
    | None => OK (stripped (prod_map id coerce <$> parsed))
    end.
Proof.
  rewrite strip_comment_cases. unfold stripped. rewrite dict_get_fmap.
  destruct (dict_get "comment" parsed) as [s|]; [|done].
  cbn [fmap option_fmap option_map].
  destruct (numeric s) eqn:Hnum.
  - pose proof (coerce_numeric s Hnum) as Hnot.
    destruct (coerce s) as [s'| | |]; [by destruct (Hnot s')|done..].
  - by rewrite (coerce_text s Hnum).
Qed.

Lemma get_header_OK_parts (disk : files) (filepath : string)
    (hs : list FileHeader) :
  get_header disk filepath = OK hs →
  ∃ (c : container) (tree fits : element) (rest : list jp2box)
    (parsed : dict string),
    disk !! filepath = Some c
    ∧ filter (fun b => box_id b = "xml ") (box c) = XMLBox tree :: rest
    ∧ find "fits" tree = Some fits
    ∧ node_to_dict (children fits) [] = OK parsed
    ∧ (∀ s, dict_get "comment" parsed = Some s → numeric s = false)
    ∧ hs = [header_of tree parsed].
Proof.
  intros Hget.
  destruct (get_header_OK_inv _ _ _ Hget) as (c & tree & rest & Hdisk & Hxml).
  rewrite (get_header_first_xml _ _ _ _ _ Hdisk Hxml) in Hget.
  destruct (find "fits" tree) as [fits|] eqn:Hfits; run_in Hget; [|done].
  destruct (node_to_dict (children fits) []) as [parsed|] eqn:Hparsed;
    run_in Hget; [|done].
  rewrite strip_comment_coerced in Hget.
  exists c, tree, fits, rest, parsed. do 4 (split; [done|]).
  destruct (dict_get "comment" parsed) as [s|].
  - destruct (numeric s) eqn:Hnum; run_in Hget; [done|].
    injection Hget as <-. split; [|done]. by intros ? [= <-].
  - run_in Hget. injection Hget as <-. by split.
Qed.

(** X7 -- [read] follows [get_header]: when [get_header] raises, [read]
    raises the same error; when [read] returns, [get_header] returns one
    header, and [read] returns one pair, with that header and the rows of
    the file in reverse order. *)
Theorem read_follows_get_header (disk : files) (filepath : string) :
  (∀ e, get_header disk filepath = Raise e → read disk filepath = Raise e)
  ∧ (∀ ps, read disk filepath = OK ps →
       ∃ (c : container) (h : FileHeader),
         disk !! filepath = Some c
         ∧ get_header disk filepath = OK [h]
         ∧ ps = [{| data := reverse (codestream c); header := h |}]).
Proof.
  split.
  - intros e Hget. unfold read. by rewrite Hget.
  - intros ps Hread. unfold read in Hread.
    destruct (get_header disk filepath) as [hs|] eqn:Hget; run_in Hread;
      [|done].
    destruct (get_header_OK_parts _ _ _ Hget)
      as (c & tree & fits & rest & parsed & Hdisk & _ & _ & _ & _ & ->).
    unfold Jp2k in Hread. rewrite Hdisk in Hread. cbn in Hread.
    injection Hread as <-. by exists c, (header_of tree parsed).
Qed.

(** X10 -- only the first XML box counts: two files whose first XML boxes
    hold the same tree give the same result, whatever their other boxes,
    further XML boxes and samples. *)
Theorem get_header_first_xml_only (disk1 disk2 : files)
    (filepath1 filepath2 : string) (c1 c2 : container) (tree : element)
    (rest1 rest2 : list jp2box) :
  disk1 !! filepath1 = Some c1 →
  disk2 !! filepath2 = Some c2 →
  filter (fun b => box_id b = "xml ") (box c1) = XMLBox tree :: rest1 →
  filter (fun b => box_id b = "xml ") (box c2) = XMLBox tree :: rest2 →
  get_header disk1 filepath1 = get_header disk2 filepath2.
Proof.
  intros Hdisk1 Hdisk2 Hxml1 Hxml2.
  by rewrite (get_header_first_xml _ _ _ _ _ Hdisk1 Hxml1),
             (get_header_first_xml _ _ _ _ _ Hdisk2 Hxml2).
Qed.

(** X19 -- a first XML box without fits element: [get_header] and [read]
    raise the serializer's error; a later XML box is not looked at and no
    empty header is returned. *)
Theorem get_header_without_fits (disk : files) (filepath : string)
    (c : container) (tree : element) (rest : list jp2box) :
  disk !! filepath = Some c →
  filter (fun b => box_id b = "xml ") (box c) = XMLBox tree :: rest →
  find "fits" tree = None →
  get_header disk filepath = Raise SerializeError
  ∧ read disk filepath = Raise SerializeError.
Proof.
  intros Hdisk Hxml Hfits.
  assert (get_header disk filepath = Raise SerializeError) as Hget
    by by rewrite (get_header_first_xml _ _ _ _ _ Hdisk Hxml), Hfits.
  split; [done|]. unfold read. by rewrite Hget.
Qed.

Lemma has_newline_remove_newlines (s : string) :
  has_newline (remove_newlines s) = false.
Proof.
  induction s as [|c s IH]; [done|]. cbn [remove_newlines].
  destruct (Ascii.eqb c newline) eqn:Hc; [done|].
  cbn [has_newline]. by rewrite Hc, IH.
Qed.

(** X11 -- the comment of a returned header: if the header has the key
    comment, its value is a string and holds no newline. *)
Theorem get_header_comment_has_no_newline (disk : files) (filepath : string)
    (h : FileHeader) (v : value) :
  get_header disk filepath = OK [h] →
  dict_get "comment" h = Some v →
  ∃ s : string, v = VStr s ∧ has_newline s = false.
Proof.
  intros Hget Hcomment.
  destruct (get_header_OK_parts _ _ _ Hget)
    as (c & tree & fits & rest & parsed & _ & _ & _ & _ & Htext & [= ->]).
  unfold header_of in Hcomment. rewrite dict_get_set_ne in Hcomment by done.
  unfold stripped in Hcomment. rewrite dict_get_fmap in Hcomment.
  destruct (dict_get "comment" parsed) as [s|] eqn:Hs.
  - cbn [fmap option_fmap option_map] in Hcomment.
    rewrite (coerce_text s (Htext s eq_refl)) in Hcomment.
    rewrite dict_get_set_eq in Hcomment. injection Hcomment as <-.
    eexists. split; [done|]. apply has_newline_remove_newlines.
  - cbn [fmap option_fmap option_map] in Hcomment.
    by rewrite dict_get_fmap, Hs in Hcomment.
Qed.

End results.

(** ** Reading what [write] wrote, for any header *)

Section written_files.
Context `{PyFloat} `{Jp2Codec}.



(** The comment of the header is a number in the file. *)
Lemma not_comment_is_text (hdr : Header) :
  ¬ comment_is_text hdr →
  "comment" ∈ header_iter hdr
  ∧ numeric (field_text (header_get hdr "comment")) = true.
Proof.
  unfold comment_is_text. intros Hnot.
  destruct (decide ("comment" ∈ header_iter hdr)) as [Hin|Hout].
  - split; [done|].
    destruct (numeric (field_text (header_get hdr "comment"))); [done|].
    by destruct Hnot.
  - by destruct Hnot.
Qed.

Lemma get_header_write_text (disk : files) (fname : string) (data : image)
    (hdr : Header) :
  xml_free (default_boxes (np_uint8 data)) →
  comment_is_text hdr →
  get_header (write disk fname data hdr) fname
  = OK [dict_set "helioviewer" (VBool false) (stripped (parsed_fields hdr))].
Proof.
  intros Hfree Htext. rewrite get_header_write by done.
  rewrite strip_comment_cases. unfold stripped.
  destruct (decide ("comment" ∈ header_iter hdr)) as [Hin|Hout].
  - by rewrite (dict_get_parsed_fields _ _ Hin), (coerce_text _ (Htext Hin)).
  - assert (dict_get "comment" (parsed_fields hdr) = None) as ->; [|done].
    apply dict_get_None. rewrite parsed_fields_keys.
    by rewrite elem_of_first_occurrences.
Qed.

(** X12 -- which headers give a file that can be read back, for a call of
    [write] that returns and a header with ASCII texts.  [get_header] on the
    written file returns when the header has no comment or a comment whose
    text is neither all digits nor a float; with any other comment (a
    number, a boolean, a string of digits) it raises AttributeError.
    (Here and below, the codec's default boxes hold no XML box.) *)
Theorem get_header_write_readable (disk : files) (fname : string)
    (data : image) (hdr : Header) :
  xml_free (default_boxes (np_uint8 data)) →
  ascii_texts hdr →
  (comment_is_text hdr →
   ∃ h : FileHeader, get_header (write disk fname data hdr) fname = OK [h])
  ∧ (¬ comment_is_text hdr →
     get_header (write disk fname data hdr) fname = Raise AttributeError).
Proof.
  intros Hfree _. split.
  - intros Htext. eexists. by apply get_header_write_text.
  - intros [Hin Hnum]%not_comment_is_text.
    rewrite get_header_write by done.
    rewrite strip_comment_cases, (dict_get_parsed_fields _ _ Hin).
    pose proof (coerce_numeric _ Hnum) as Hnot.
    destruct (coerce _) as [s'| | |]; [by destruct (Hnot s')|done..].
Qed.






Lemma read_OK_data (disk : files) (filepath : string) (p : HDPair) :
  read disk filepath = OK [p] →
  ∃ c : container,
    disk !! filepath = Some c ∧ data p = reverse (codestream c).
Proof.
  unfold read. intros Hread.
  destruct (get_header disk filepath) as [hs|] eqn:Hget; run_in Hread; [|done].
  destruct (get_header_OK_parts _ _ _ Hget)
    as (c & tree & fits & rest & parsed & Hdisk & _ & _ & _ & _ & ->).
  unfold Jp2k in Hread. rewrite Hdisk in Hread. cbn in Hread.
  injection Hread as <-. by exists c.
Qed.

(** X17 -- [write] does not undo the flip of [read].  What [read] returns
    from a written file are the coerced samples with the rows reversed;
    writing that and reading again gives the coerced samples in their
    original order. *)
Theorem read_write_twice (disk disk' : files) (fname fname' : string)
    (img : image) (hdr hdr' : Header) (p1 p2 : HDPair) :
  read (write disk fname img hdr) fname = OK [p1] →
  read (write disk' fname' (data p1) hdr') fname' = OK [p2] →
  data p1 = reverse (np_uint8 img)
  ∧ data p2 = np_uint8 img.
Proof.
  intros Hread1 Hread2.
  destruct (read_OK_data _ _ _ Hread1) as (c1 & Hc1 & Hdata1).
  destruct (read_OK_data _ _ _ Hread2) as (c2 & Hc2 & Hdata2).
  rewrite write_lookup in Hc1, Hc2.
  injection Hc1 as <-. injection Hc2 as <-. cbn [codestream] in *.
  split; [done|].
  by rewrite Hdata2, Hdata1, np_uint8_reverse, np_uint8_idemp,
             reverse_involutive.
Qed.

Lemma find_no_field (hdr : Header) (k : string) (keys : list string) :
  k ∉ keys →
  List.find (fun c => String.eqb (tag c) k) (field_element hdr <$> keys)
  = None.
Proof.
  induction keys as [|k' keys IH]; [done|].
  rewrite not_elem_of_cons. intros [Hne Hout].
  cbn [fmap list_fmap List.find field_element tag].
  destruct (String.eqb_spec k' k) as [->|_]; [done | by apply IH].
Qed.

(** X18 -- looking a key up in the tree of [header_to_xml]: a key of the
    header is found, as a leaf named after it that holds its text; any other
    name is not found. *)
Theorem header_to_xml_find (hdr : Header) (k : string) :
  find k (header_to_xml hdr)
  = if decide (k ∈ header_iter hdr)
    then Some (Element k (field_text (header_get hdr k)) [])
    else None.
Proof.
  rewrite header_to_xml_children. unfold find. cbn [children].
  destruct (decide (k ∈ header_iter hdr)) as [Hin|Hout].
  - by rewrite find_field by by apply elem_of_first_occurrences.
  - by rewrite find_no_field by by rewrite elem_of_first_occurrences.
Qed.

End written_files.

(** ** The further properties on sample files *)

Section more_samples.
Import Sample.
#[local] Existing Instance literal_float.
#[local] Existing Instance minimal_codec.

Lemma write_preserves_other_files_sample :
  get_header (write hv_disk "sun.jp2" sun_image (dict_header sun_header))
    "hv.jp2" = OK [hv_header]
  ∧ read (write hv_disk "sun.jp2" sun_image (dict_header sun_header)) "hv.jp2"
    = read hv_disk "hv.jp2".
Proof.
  destruct (write_preserves_other_files hv_disk "sun.jp2" "hv.jp2" sun_image
              (dict_header sun_header)) as [Hheader Hread];
    [discriminate | discriminate |].
  split; [|exact Hread]. etrans; [exact Hheader | reflexivity].
Defined.

Lemma write_keeps_default_boxes_sample :
  ∃ c : container,
    @write literal_float empty_codec ∅ "sun.jp2" sun_image
      (dict_header sun_header) !! "sun.jp2" = Some c
    ∧ box c = [generate_jp2_xmlbox (dict_header sun_header)].
Proof.
  destruct (@write_keeps_default_boxes literal_float empty_codec ∅ "sun.jp2"
              sun_image (dict_header sun_header))
    as (c & Hc & _ & _ & _ & Hempty).
  exists c. split; [exact Hc | by apply Hempty].
Defined.

Lemma read_follows_get_header_sample :
  read bare_disk "bare.jp2" = Raise IndexError
  ∧ get_header hv_disk "hv.jp2" = OK [hv_header].
Proof.
  split.
  - by apply (proj1 (read_follows_get_header bare_disk "bare.jp2")).
  - destruct (proj2 (read_follows_get_header hv_disk "hv.jp2")
                [{| data := [[255; 7]; [0; 128]]%Z; header := hv_header |}]
                eq_refl) as (c & h & _ & Hget & Hps).
    by injection Hps as _ <-.
Defined.

Lemma get_header_first_xml_only_sample :
  get_header
    {[ "copy.jp2" := {| box := [XMLBox hv_tree; XMLBox dated_tree];
                        codestream := [] |} ]} "copy.jp2"
  = OK [hv_header].
Proof.
  etrans; [|exact (eq_refl : get_header hv_disk "hv.jp2" = OK [hv_header])].
  apply (get_header_first_xml_only _ hv_disk "copy.jp2" "hv.jp2"
           {| box := [XMLBox hv_tree; XMLBox dated_tree]; codestream := [] |}
           {| box := [Box jP []; Box ftyp []; Box jp2h []; XMLBox hv_tree;
                      Box jp2c []];
              codestream := sun_image |}
           hv_tree [XMLBox dated_tree] []); reflexivity.
Defined.

Lemma get_header_without_fits_sample :
  get_header two_xml_disk "two.jp2" = Raise SerializeError
  ∧ read two_xml_disk "two.jp2" = Raise SerializeError.
Proof.
  apply (get_header_without_fits two_xml_disk "two.jp2"
           {| box := [Box jP []; XMLBox (Element "meta" "" []);
                      XMLBox hv_tree; Box jp2c []];
              codestream := sun_image |}
           (Element "meta" "" []) [XMLBox hv_tree]); reflexivity.
Defined.

Lemma get_header_comment_has_no_newline_sample :
  ∃ s : string, VStr "line1line2" = VStr s ∧ has_newline s = false.
Proof.
  apply (get_header_comment_has_no_newline hv_disk "hv.jp2" hv_header
           (VStr "line1line2")); reflexivity.
Defined.

Lemma get_header_write_readable_sample :
  (∃ h : FileHeader,
     get_header (write ∅ "sun.jp2" sun_image32 (dict_header sun_header))
       "sun.jp2" = OK [h])
  ∧ get_header (write ∅ "sun.jp2" sun_image32 (dict_header dated_header))
      "sun.jp2" = Raise AttributeError.
Proof.
  split.
  - apply (get_header_write_readable ∅ "sun.jp2" sun_image32
             (dict_header sun_header)); [no_xml_box | repeat constructor |].
    intros _. reflexivity.
  - apply (get_header_write_readable ∅ "sun.jp2" sun_image32
             (dict_header dated_header)); [no_xml_box | repeat constructor |].
    intros Htext. assert ("comment" ∈ header_iter (dict_header dated_header))
      as Hin by elem_of_keys.
    specialize (Htext Hin). vm_compute in Htext. discriminate.
Defined.





Lemma read_write_twice_sample :
  data
    {| data := [[255; 7]; [0; 128]]%Z;
       header := [("telescop", VStr "SOHO"); ("helioviewer", VBool false)] |}
  = reverse (np_uint8 sun_image)
  ∧ data
      {| data := sun_image;
         header := [("telescop", VStr "SOHO"); ("helioviewer", VBool false)] |}
    = np_uint8 sun_image.
Proof.
  apply (read_write_twice ∅ ∅ "sun.jp2" "again.jp2" sun_image
           (dict_header [("telescop", VStr "SOHO")])
           (dict_header [("telescop", VStr "SOHO")])); reflexivity.
Defined.

End more_samples.

Section iff_samples.
Import Sample.
#[local] Existing Instance literal_float.
#[local] Existing Instance minimal_codec.

Lemma get_tmp_jp2_file_name_inj_sample :
  get_tmp_jp2_file_name "sun.jp2" = "sun.jp2.tmp.jp2"
  ∧ get_tmp_jp2_file_name "sun.jp2" ≠ get_tmp_jp2_file_name "moon.jp2".
Proof.
  split; [reflexivity|].
  intros Heq.
  apply (proj1 (get_tmp_jp2_file_name_inj "sun.jp2" "moon.jp2")) in Heq.
  discriminate.
Defined.

Lemma write_stores_samples_unchanged_sample :
  ∃ c : container,
    write ∅ "sun.jp2" sun_image (dict_header sun_header) !! "sun.jp2" = Some c
    ∧ codestream c = sun_image.
Proof.
  destruct (write_stores_samples_unchanged ∅ "sun.jp2" sun_image
              (dict_header sun_header)) as (c & Hc & Hiff).
  exists c. split; [exact Hc|]. apply Hiff. repeat constructor; lia.
Defined.

End iff_samples.
